(** * The App Runner VPC Ingress Connection construct

    A shallow embedding of
    [packages/@aws-cdk/aws-apprunner-alpha/lib/vpc-ingress-connection.ts]:
    the constructor of [VpcIngressConnection] with its name validation, and
    the two import paths [fromVpcIngressConnectionAttributes] and [fromArn].

    JavaScript strings are sequences of UTF-16 code units and [length]
    counts code units, so a string is a list of code units here. *)

From Stdlib Require Import String Ascii List NArith Arith Bool Lia.
From Stdlib Require Import DecimalNat DecimalString.
Import ListNotations.

Local Open Scope list_scope.

(** ** JavaScript strings *)

Definition jsstring : Type := list N.

(** A string literal of the source, as code units. *)
Definition js (s : string) : jsstring :=
  map N_of_ascii (list_ascii_of_string s).

(** The text a template literal [${n}] gives for a non-negative integer. *)
Definition decimal (n : nat) : jsstring :=
  js (NilEmpty.string_of_uint (Nat.to_uint n)).

(** *** Regular expressions: character classes

    The one pattern of the source, [/^[A-Za-z0-9][A-Za-z0-9\-_]*$/], is made
    of two character classes.  It carries no flag, so [^] and [$] are the two
    ends of the input and a class is compared code unit by code unit. *)

Inductive ClassItem : Type :=
| Range (lo hi : ascii)
| Single (c : ascii).

Definition inItem (u : N) (it : ClassItem) : bool :=
  match it with
  | Range lo hi => (N_of_ascii lo <=? u)%N && (u <=? N_of_ascii hi)%N
  | Single c => (u =? N_of_ascii c)%N
  end.

Definition inClass (cls : list ClassItem) (u : N) : bool :=
  existsb (inItem u) cls.

(** [[A-Za-z0-9]] *)
Definition headClass : list ClassItem :=
  [Range "A" "Z"; Range "a" "z"; Range "0" "9"].

(** [[A-Za-z0-9\-_]] *)
Definition tailClass : list ClassItem :=
  [Range "A" "Z"; Range "a" "z"; Range "0" "9"; Single "-"; Single "_"].

(** [/^[A-Za-z0-9][A-Za-z0-9\-_]*$/.test(s)] *)
Definition namePattern_test (s : jsstring) : bool :=
  match s with
  | [] => false
  | c :: rest => inClass headClass c && forallb (inClass tailClass) rest
  end.

(** *** [String.prototype.split] with a string separator and no limit *)

Fixpoint startsWith (sep s : jsstring) : bool :=
  match sep, s with
  | [], _ => true
  | _ :: _, [] => false
  | a :: sep', b :: s' => (a =? b)%N && startsWith sep' s'
  end.

(** The segments of [s] as the first one and the others.  [skip] counts the
    code units of a separator that was recognised and is still to be
    passed over. *)
Fixpoint splitFrom (sep : jsstring) (skip : nat) (s : jsstring)
  : jsstring * list jsstring :=
  match s with
  | [] => ([], [])
  | c :: rest =>
      match skip with
      | S k => splitFrom sep k rest
      | O =>
          if startsWith sep s
          then ([], let (seg, segs) := splitFrom sep (length sep - 1) rest in
                    seg :: segs)
          else let (seg, segs) := splitFrom sep 0 rest in (c :: seg, segs)
      end
  end.

Definition split (sep s : jsstring) : list jsstring :=
  match sep with
  | [] => map (fun c => [c]) s
  | _ :: _ => let (seg, segs) := splitFrom sep 0 s in seg :: segs
  end.

Definition slash : jsstring := js "/".

(** [Array.prototype.join] with a string separator. *)
Fixpoint join (sep : jsstring) (segs : list jsstring) : jsstring :=
  match segs with
  | [] => []
  | seg :: rest =>
      match rest with
      | [] => seg
      | _ :: _ => seg ++ sep ++ join sep rest
      end
  end.

(** ** Errors, results and the construct tree *)

(** [new Error(message)] *)
Record Error : Type := mkError { message : jsstring }.

Inductive Result (A : Type) : Type :=
| Ok (a : A)
| Throw (e : Error).

Arguments Ok {A} a.
Arguments Throw {A} e.

(** *** Collaborators' records *)

Module IService.
Record t : Type := mk { serviceArn : jsstring }.
End IService.

Module IVpc.
Record t : Type := mk { vpcId : jsstring }.
End IVpc.

Module IInterfaceVpcEndpoint.
Record t : Type := mk { vpcEndpointId : jsstring }.
End IInterfaceVpcEndpoint.

Module VpcIngressConnectionProps.
Record t : Type := mk {
  vpcIngressConnectionName : option jsstring;
  service : IService.t;
  vpc : IVpc.t;
  interfaceVpcEndpoint : IInterfaceVpcEndpoint.t
}.
End VpcIngressConnectionProps.

Module VpcIngressConnectionAttributes.
Record t : Type := mk {
  vpcIngressConnectionArn : jsstring;
  vpcIngressConnectionName : jsstring;
  domainName : jsstring;
  status : jsstring
}.
End VpcIngressConnectionAttributes.

Module IngressVpcConfigurationProperty.
Record t : Type := mk {
  vpcEndpointId : jsstring;
  vpcId : jsstring
}.
End IngressVpcConfigurationProperty.

(** What the constructor of [CfnVpcIngressConnection] is given: the request
    handed to the provisioning side. *)
Module CfnVpcIngressConnectionProps.
Record t : Type := mk {
  ingressVpcConfiguration : IngressVpcConfigurationProperty.t;
  serviceArn : jsstring;
  vpcIngressConnectionName : jsstring
}.
End CfnVpcIngressConnectionProps.

(** A [CfnVpcIngressConnection] in the tree: the id of the construct it was
    created under, its own id and its properties. *)
Module CfnVpcIngressConnection.
Record t : Type := mk {
  scope : jsstring;
  id : jsstring;
  props : CfnVpcIngressConnectionProps.t
}.
End CfnVpcIngressConnection.

(** The object an entry point returns.  A field is [None] when the object
    has no such property ([undefined] in JavaScript). *)
Module IVpcIngressConnection.
Record t : Type := mk {
  vpcIngressConnectionArn : option jsstring;
  vpcIngressConnectionName : option jsstring;
  domainName : option jsstring;
  status : option jsstring
}.
End IVpcIngressConnection.

(** The scope an entry point is called with, seen through what this file
    adds to it: the [CfnVpcIngressConnection] resources created below it, in
    the order of their creation. *)
Definition Construct : Type := list CfnVpcIngressConnection.t.

(** *** Computations that change the tree and may throw

    A [throw] leaves the tree as it was at that point. *)

Definition M (A : Type) : Type := Construct -> Result A * Construct.

Definition ret {A : Type} (a : A) : M A := fun tree => (Ok a, tree).

Definition throw {A : Type} (e : Error) : M A := fun tree => (Throw e, tree).

Definition bind {A B : Type} (m : M A) (k : A -> M B) : M B :=
  fun tree =>
    match m tree with
    | (Ok a, tree') => k a tree'
    | (Throw e, tree') => (Throw e, tree')
    end.

Notation "x <- m ;; k" := (bind m (fun x => k))
  (at level 61, m at next level, right associativity).
Notation "m ;; k" := (bind m (fun _ => k))
  (at level 61, right associativity).

(** [new CfnVpcIngressConnection(scope, id, props)] *)
Definition CfnVpcIngressConnection_new (scope id : jsstring)
  (props : CfnVpcIngressConnectionProps.t) : M CfnVpcIngressConnection.t :=
  fun tree =>
    let resource := CfnVpcIngressConnection.mk scope id props in
    (Ok resource, tree ++ [resource]).

(** ** What [aws-cdk-lib] provides

    The source reads these from [aws-cdk-lib/core] and
    [aws-cdk-lib/aws-apprunner]; none of them is defined in the file under
    study, so the development is parametric in them. *)

Class CdkCore : Type := {
  (** [cdk.Token.isUnresolved] on a string: is it a placeholder for a value
      known only later? *)
  isUnresolved : jsstring -> bool;
  (** The placeholder a resource without a physical name carries. *)
  assignedName : jsstring;
  (** The placeholder for segment [index] of a placeholder [source] split on
      [delimiter]. *)
  deferredSegment : nat -> jsstring -> jsstring -> jsstring;
  (** The attributes a [CfnVpcIngressConnection] reflects. *)
  ref : CfnVpcIngressConnection.t -> jsstring;
  attrVpcIngressConnectionArn : CfnVpcIngressConnection.t -> jsstring;
  attrDomainName : CfnVpcIngressConnection.t -> jsstring;
  attrStatus : CfnVpcIngressConnection.t -> jsstring
}.

Section VpcIngressConnection.

Context {core : CdkCore}.

(** Modelled from the spec: the constructor of the base class [cdk.Resource],
    which sets [this.physicalName] from the [physicalName] it is given, is not
    in the file under study.  The request carries either the name the caller
    gave or a placeholder for the name assigned later. *)
Definition physicalName (name : option jsstring) : jsstring :=
  match name with
  | Some n => n
  | None => assignedName
  end.

(** The result of [cdk.Fn.split]: the segments, or a placeholder for them. *)
Inductive Segments : Type :=
| Known (segs : list jsstring)
| Deferred (delimiter source : jsstring).

(** Modelled from the spec: [cdk.Fn.split] is not in the file under study.
    It splits a concrete source on the delimiter; of a placeholder the
    segments are a placeholder too. *)
Definition Fn_split (delimiter source : jsstring) : Segments :=
  if isUnresolved source then Deferred delimiter source
  else Known (split delimiter source).

(** Modelled from the spec: [cdk.Fn.select] is not in the file under study.
    It is [array[index]] on known segments, [undefined] out of range, and a
    placeholder on a placeholder. *)
Definition Fn_select (index : nat) (array : Segments) : option jsstring :=
  match array with
  | Known segs => nth_error segs index
  | Deferred delimiter source => Some (deferredSegment index delimiter source)
  end.

(** *** The two errors of the constructor *)

Definition InvalidNameLength (name : jsstring) : Error :=
  mkError (js "`vpcIngressConnectionName` must be between 4 and 40 characters, got: "
           ++ decimal (length name) ++ js " characters.").

Definition InvalidNameFormat (name : jsstring) : Error :=
  mkError (js "`vpcIngressConnectionName` must start with an alphanumeric character and contain only alphanumeric characters, hyphens, or underscores after that, got: "
           ++ name ++ js ".").

(** *** The entry points *)

Definition fromVpcIngressConnectionAttributes (scope : Construct)
  (id : jsstring) (attrs : VpcIngressConnectionAttributes.t)
  : Result IVpcIngressConnection.t * Construct :=
  let vpcIngressConnectionArn :=
    VpcIngressConnectionAttributes.vpcIngressConnectionArn attrs in
  let domainName := VpcIngressConnectionAttributes.domainName attrs in
  let status := VpcIngressConnectionAttributes.status attrs in
  let vpcIngressConnectionName :=
    VpcIngressConnectionAttributes.vpcIngressConnectionName attrs in
  ret {| IVpcIngressConnection.vpcIngressConnectionArn :=
           Some vpcIngressConnectionArn;
         IVpcIngressConnection.domainName := Some domainName;
         IVpcIngressConnection.status := Some status;
         IVpcIngressConnection.vpcIngressConnectionName :=
           Some vpcIngressConnectionName |} scope.

Definition fromArn (scope : Construct) (id : jsstring)
  (vpcIngressConnectionArn : jsstring)
  : Result IVpcIngressConnection.t * Construct :=
  let resourceParts := Fn_split slash vpcIngressConnectionArn in
  let vpcIngressConnectionName := Fn_select 0 resourceParts in
  ret {| IVpcIngressConnection.vpcIngressConnectionName :=
           vpcIngressConnectionName;
         IVpcIngressConnection.vpcIngressConnectionArn :=
           Some vpcIngressConnectionArn;
         IVpcIngressConnection.domainName := None;
         IVpcIngressConnection.status := None |} scope.

(** [new VpcIngressConnection(scope, id, props)] *)
Definition VpcIngressConnection_new (scope : Construct) (id : jsstring)
  (props : VpcIngressConnectionProps.t)
  : Result IVpcIngressConnection.t * Construct :=
  let this_physicalName :=
    physicalName (VpcIngressConnectionProps.vpcIngressConnectionName props) in
  ((match VpcIngressConnectionProps.vpcIngressConnectionName props with
    | Some name =>
        if negb (isUnresolved name) then
          (if (length name <? 4) || (40 <? length name)
           then throw (InvalidNameLength name) else ret tt) ;;
          (if negb (namePattern_test name)
           then throw (InvalidNameFormat name) else ret tt)
        else ret tt
    | None => ret tt
    end) ;;
   resource <- CfnVpcIngressConnection_new id (js "Resource")
     {| CfnVpcIngressConnectionProps.ingressVpcConfiguration :=
          {| IngressVpcConfigurationProperty.vpcEndpointId :=
               IInterfaceVpcEndpoint.vpcEndpointId
                 (VpcIngressConnectionProps.interfaceVpcEndpoint props);
             IngressVpcConfigurationProperty.vpcId :=
               IVpc.vpcId (VpcIngressConnectionProps.vpc props) |};
        CfnVpcIngressConnectionProps.serviceArn :=
          IService.serviceArn (VpcIngressConnectionProps.service props);
        CfnVpcIngressConnectionProps.vpcIngressConnectionName :=
          this_physicalName |} ;;
   ret {| IVpcIngressConnection.vpcIngressConnectionArn :=
            Some (attrVpcIngressConnectionArn resource);
          IVpcIngressConnection.vpcIngressConnectionName :=
            Some (ref resource);
          IVpcIngressConnection.domainName := Some (attrDomainName resource);
          IVpcIngressConnection.status := Some (attrStatus resource) |}) scope.

(** The request the constructor hands over for [props], under the construct
    [id]. *)
Definition requestOf (id : jsstring) (props : VpcIngressConnectionProps.t)
  : CfnVpcIngressConnection.t :=
  CfnVpcIngressConnection.mk id (js "Resource")
    {| CfnVpcIngressConnectionProps.ingressVpcConfiguration :=
         {| IngressVpcConfigurationProperty.vpcEndpointId :=
              IInterfaceVpcEndpoint.vpcEndpointId
                (VpcIngressConnectionProps.interfaceVpcEndpoint props);
            IngressVpcConfigurationProperty.vpcId :=
              IVpc.vpcId (VpcIngressConnectionProps.vpc props) |};
       CfnVpcIngressConnectionProps.serviceArn :=
         IService.serviceArn (VpcIngressConnectionProps.service props);
       CfnVpcIngressConnectionProps.vpcIngressConnectionName :=
         physicalName
           (VpcIngressConnectionProps.vpcIngressConnectionName props) |}.

(** The object the constructor builds over the resource it created. *)
Definition handleOf (resource : CfnVpcIngressConnection.t)
  : IVpcIngressConnection.t :=
  {| IVpcIngressConnection.vpcIngressConnectionArn :=
       Some (attrVpcIngressConnectionArn resource);
     IVpcIngressConnection.vpcIngressConnectionName := Some (ref resource);
     IVpcIngressConnection.domainName := Some (attrDomainName resource);
     IVpcIngressConnection.status := Some (attrStatus resource) |}.

End VpcIngressConnection.

(** ** An instance of the library side, for running the entry points

    A string counts as a placeholder when it carries the opening of a token
    marker; the placeholders the instance hands out are such strings. *)

Fixpoint contains (pattern s : jsstring) : bool :=
  startsWith pattern s ||
  match s with
  | [] => false
  | _ :: s' => contains pattern s'
  end.

Definition marker (body : jsstring) : jsstring :=
  js "${Token[" ++ body ++ js "]}".

Definition sampleCore : CdkCore := {|
  isUnresolved := contains (js "${Token[");
  assignedName := marker (js "undefined");
  deferredSegment := fun index delimiter source =>
    marker (js "select." ++ decimal index ++ js ".split." ++ delimiter
            ++ js "." ++ source);
  ref := fun r =>
    marker (CfnVpcIngressConnection.scope r ++ slash
            ++ CfnVpcIngressConnection.id r ++ js ".Ref");
  attrVpcIngressConnectionArn := fun r =>
    marker (CfnVpcIngressConnection.scope r ++ slash
            ++ CfnVpcIngressConnection.id r ++ js ".VpcIngressConnectionArn");
  attrDomainName := fun r =>
    marker (CfnVpcIngressConnection.scope r ++ slash
            ++ CfnVpcIngressConnection.id r ++ js ".DomainName");
  attrStatus := fun r =>
    marker (CfnVpcIngressConnection.scope r ++ slash
            ++ CfnVpcIngressConnection.id r ++ js ".Status")
|}.

Definition sampleProps (name : option jsstring) : VpcIngressConnectionProps.t :=
  {| VpcIngressConnectionProps.vpcIngressConnectionName := name;
     VpcIngressConnectionProps.service :=
       IService.mk (js "arn:aws:apprunner:us-east-1:123456789012:service/svc/1");
     VpcIngressConnectionProps.vpc := IVpc.mk (js "vpc-0abc");
     VpcIngressConnectionProps.interfaceVpcEndpoint :=
       IInterfaceVpcEndpoint.mk (js "vpce-0def") |}.

Definition sampleArn : jsstring :=
  js "arn:aws:apprunner:us-east-1:123456789012:vpcingressconnection/myconn/abcd1234".

(** A placeholder of more than 40 code units. *)
Definition longPlaceholder : jsstring :=
  js "${Token[TOKEN.123456789012345678901234567890123]}".

(** ** The naming rule and the first segment, in the words of the specification *)

(** [A-Z], [a-z] or [0-9] as code units. *)
Definition asciiAlphanumeric (u : N) : Prop :=
  (65 <= u <= 90 \/ 97 <= u <= 122 \/ 48 <= u <= 57)%N.

(** Alphanumeric, hyphen (45) or underscore (95). *)
Definition nameChar (u : N) : Prop :=
  asciiAlphanumeric u \/ u = 45%N \/ u = 95%N.

Definition wellFormedName (s : jsstring) : Prop :=
  exists c rest, s = c :: rest /\ asciiAlphanumeric c /\ Forall nameChar rest.

(** The part of [s] before its first [/] (code unit 47); all of [s] when it
    has none. *)
Fixpoint firstSegment (s : jsstring) : jsstring :=
  match s with
  | [] => []
  | c :: rest => if (c =? 47)%N then [] else c :: firstSegment rest
  end.


(** ** The pattern and the words of the naming rule *)

Lemma inClass_headClass (u : N) :
  inClass headClass u = true <-> asciiAlphanumeric u.
Proof.
  unfold inClass, headClass, asciiAlphanumeric; cbn.
  rewrite !orb_true_iff, !andb_true_iff, !N.leb_le.
  intuition (try discriminate; lia).
Qed.

Lemma inClass_tailClass (u : N) :
  inClass tailClass u = true <-> nameChar u.
Proof.
  unfold inClass, tailClass, nameChar, asciiAlphanumeric; cbn.
  rewrite !orb_true_iff, !andb_true_iff, !N.leb_le, !N.eqb_eq.
  intuition (try discriminate; lia).
Qed.

Lemma forallb_tailClass (s : jsstring) :
  forallb (inClass tailClass) s = true <-> Forall nameChar s.
Proof.
  induction s as [|c s IH]; cbn [forallb].
  - split; [constructor | reflexivity].
  - rewrite andb_true_iff, IH, inClass_tailClass. split.
    + intros [Hc Hs]. now constructor.
    + intros H. inversion H; subst. now split.
Qed.

Lemma namePattern_test_wellFormed (s : jsstring) :
  namePattern_test s = true <-> wellFormedName s.
Proof.
  unfold wellFormedName. destruct s as [|c rest]; cbn [namePattern_test].
  - split; [discriminate | intros (c & rest & H & _); discriminate].
  - rewrite andb_true_iff, inClass_headClass, forallb_tailClass. split.
    + intros [Hc Hrest]. now exists c, rest.
    + intros (c' & rest' & E & Hc & Hrest). injection E as -> ->. now split.
Qed.

(** A name that breaks the rule in one of the two ways the specification lists does
    not pass the pattern. *)
Lemma namePattern_test_rejects (s : jsstring) :
  (exists c rest, s = c :: rest /\ ~ asciiAlphanumeric c) \/
  Exists (fun u => ~ nameChar u) s ->
  namePattern_test s = false.
Proof.
  intros H. apply not_true_is_false. rewrite namePattern_test_wellFormed.
  intros (c & rest & -> & Hc & Hrest). destruct H as [(c' & rest' & E & Hn) | H].
  - injection E as <- <-. contradiction.
  - inversion H as [x l Hx | x l Hx]; subst.
    + apply Hx. now left.
    + rewrite Exists_exists in Hx. destruct Hx as (u & Hin & Hu).
      rewrite Forall_forall in Hrest. now apply Hu, Hrest.
Qed.

(** ** The two errors *)

Lemma js_inj (s t : string) : js s = js t -> s = t.
Proof.
  unfold js. intros H.
  rewrite <- (string_of_list_ascii_of_string s),
          <- (string_of_list_ascii_of_string t).
  f_equal. revert H.
  generalize (list_ascii_of_string s) (list_ascii_of_string t).
  induction l as [|a l IH]; intros [|b l']; cbn; intros H;
    try discriminate; [reflexivity|].
  injection H as Hab Hl. f_equal; [|now apply IH].
  now rewrite <- (ascii_N_embedding a), <- (ascii_N_embedding b), Hab.
Qed.

(** The decimal text of a length tells the length. *)
Lemma decimal_inj (n m : nat) : decimal n = decimal m -> n = m.
Proof.
  unfold decimal. intros H. apply js_inj in H.
  apply DecimalNat.Unsigned.to_uint_inj.
  assert (Some (Nat.to_uint n) = Some (Nat.to_uint m)) as E
    by now rewrite <- !NilEmpty.usu, H.
  now injection E.
Qed.

(** The message of the length error tells the length of the name, and the
    message of the format error tells the name. *)
Lemma InvalidNameLength_tells_length (n m : jsstring) :
  message (InvalidNameLength n) = message (InvalidNameLength m) ->
  length n = length m.
Proof.
  unfold InvalidNameLength. cbn [message]. intros H.
  apply app_inv_head, app_inv_tail in H. now apply decimal_inj.
Qed.

Lemma InvalidNameFormat_tells_name (n m : jsstring) :
  message (InvalidNameFormat n) = message (InvalidNameFormat m) -> n = m.
Proof.
  unfold InvalidNameFormat. cbn [message]. intros H.
  now apply app_inv_head, app_inv_tail in H.
Qed.

(** The two errors are told apart by their messages, whatever the names. *)
Lemma InvalidNameLength_not_Format (n m : jsstring) :
  InvalidNameLength n <> InvalidNameFormat m.
Proof.
  unfold InvalidNameLength, InvalidNameFormat. intros H.
  injection H as H. cbn in H. discriminate H.
Qed.

(** ** Splitting on a slash *)

Lemma splitFrom_slash_first (s : jsstring) :
  fst (splitFrom slash 0 s) = firstSegment s.
Proof.
  change slash with [47%N].
  induction s as [|c rest IH]; [reflexivity|].
  cbn [splitFrom firstSegment startsWith]. rewrite andb_true_r, N.eqb_sym.
  destruct (c =? 47)%N; [reflexivity|].
  destruct (splitFrom [47%N] 0 rest) as [seg segs]. cbn in *. now rewrite IH.
Qed.

Lemma split_slash_first (s : jsstring) :
  nth_error (split slash s) 0 = Some (firstSegment s).
Proof.
  rewrite <- splitFrom_slash_first. change slash with [47%N].
  unfold split. now destruct (splitFrom [47%N] 0 s).
Qed.

(** The first segment holds no slash, and the input is either the first
    segment alone or the first segment, a slash and a remainder. *)
Lemma firstSegment_spec (s : jsstring) :
  ~ In 47%N (firstSegment s) /\
  (s = firstSegment s \/ exists rest, s = firstSegment s ++ 47%N :: rest).
Proof.
  induction s as [|c rest [Hnot Hcases]]; cbn [firstSegment].
  - split; [intros [] | now left].
  - destruct (N.eqb_spec c 47) as [-> | Hc].
    + split; [intros [] | right; now exists rest].
    + split.
      * intros [E | Hin]; [now apply Hc | now apply Hnot].
      * destruct Hcases as [E | [tl E]].
        -- left. now rewrite <- E.
        -- right. exists tl. cbn. now rewrite <- E.
Qed.

Lemma firstSegment_without_slash (s : jsstring) :
  ~ In 47%N s -> firstSegment s = s.
Proof.
  induction s as [|c rest IH]; cbn [firstSegment]; [reflexivity|].
  intros Hnot. destruct (N.eqb_spec c 47) as [-> | _].
  - exfalso. apply Hnot. now left.
  - f_equal. apply IH. intros Hin. apply Hnot. now right.
Qed.

(** ** The constructor, case by case *)

Section Constructor.

Context {core : CdkCore}.
Variables (scope : Construct) (id : jsstring).
Variable props : VpcIngressConnectionProps.t.

(** A concrete name goes through the length check, then the format check,
    and only then is the resource created. *)
Lemma new_concrete (name : jsstring) :
  VpcIngressConnectionProps.vpcIngressConnectionName props = Some name ->
  isUnresolved name = false ->
  VpcIngressConnection_new scope id props =
  if (length name <? 4) || (40 <? length name)
  then (Throw (InvalidNameLength name), scope)
  else if namePattern_test name
       then (Ok (handleOf (requestOf id props)), scope ++ [requestOf id props])
       else (Throw (InvalidNameFormat name), scope).
Proof.
  intros Hname Hconcrete.
  unfold VpcIngressConnection_new, requestOf, bind.
  rewrite Hname, Hconcrete. cbn [negb].
  destruct ((length name <? 4) || (40 <? length name)); [reflexivity|].
  cbn. destruct (namePattern_test name); reflexivity.
Qed.

(** Without a name, or with a placeholder for it, the resource is created
    at once. *)
Lemma new_unchecked :
  (VpcIngressConnectionProps.vpcIngressConnectionName props = None \/
   exists name,
     VpcIngressConnectionProps.vpcIngressConnectionName props = Some name /\
     isUnresolved name = true) ->
  VpcIngressConnection_new scope id props =
  (Ok (handleOf (requestOf id props)), scope ++ [requestOf id props]).
Proof.
  intros [Hnone | (name & Hname & Hplaceholder)];
    unfold VpcIngressConnection_new, requestOf, bind.
  - now rewrite Hnone.
  - now rewrite Hname, Hplaceholder.
Qed.

Lemma length_in_range (name : jsstring) :
  4 <= length name <= 40 ->
  (length name <? 4) || (40 <? length name) = false.
Proof.
  intros H. apply orb_false_iff. split; apply Nat.ltb_ge; lia.
Qed.

Lemma length_out_of_range (name : jsstring) :
  length name < 4 \/ 40 < length name ->
  (length name <? 4) || (40 <? length name) = true.
Proof.
  intros H. apply orb_true_iff. rewrite !Nat.ltb_lt. exact H.
Qed.

End Constructor.

(** ** Properties of the three entry points *)

Section Claims.

Context {core : CdkCore}.

(** C1: for a concrete name of 4 to 40 code units whose first one is ASCII
    alphanumeric and whose others are ASCII alphanumeric, hyphen or
    underscore, the constructor does not throw; it creates one
    [CfnVpcIngressConnection] whose [vpcIngressConnectionName] is the name it
    was given, and whose endpoint id, VPC id and service ARN are those of the
    properties. *)
Theorem construct_accepts_well_formed_name
  (scope : Construct) (id : jsstring) (props : VpcIngressConnectionProps.t)
  (name : jsstring) :
  VpcIngressConnectionProps.vpcIngressConnectionName props = Some name ->
  isUnresolved name = false ->
  4 <= length name <= 40 ->
  wellFormedName name ->
  let request := CfnVpcIngressConnection.props (requestOf id props) in
  VpcIngressConnection_new scope id props
  = (Ok (handleOf (requestOf id props)), scope ++ [requestOf id props]) /\
  CfnVpcIngressConnectionProps.vpcIngressConnectionName request = name /\
  IngressVpcConfigurationProperty.vpcEndpointId
    (CfnVpcIngressConnectionProps.ingressVpcConfiguration request)
  = IInterfaceVpcEndpoint.vpcEndpointId
      (VpcIngressConnectionProps.interfaceVpcEndpoint props) /\
  IngressVpcConfigurationProperty.vpcId
    (CfnVpcIngressConnectionProps.ingressVpcConfiguration request)
  = IVpc.vpcId (VpcIngressConnectionProps.vpc props) /\
  CfnVpcIngressConnectionProps.serviceArn request
  = IService.serviceArn (VpcIngressConnectionProps.service props).
Proof.
  intros Hname Hconcrete Hlen Hform request. split.
  - rewrite (new_concrete scope id props name Hname Hconcrete).
    rewrite length_in_range by exact Hlen.
    apply namePattern_test_wellFormed in Hform. now rewrite Hform.
  - subst request. unfold requestOf. cbn. rewrite Hname. cbn. auto.
Qed.

(** C2, as amended: for the ARN
    [arn:aws:apprunner:us-east-1:123456789012:vpcingressconnection/myconn/abcd1234],
    taken as a concrete string, [fromArn] gives an object whose ARN is the
    whole input and whose name is the whole first segment,
    [arn:aws:apprunner:us-east-1:123456789012:vpcingressconnection]; it has
    neither a domain name nor a status, and nothing is created. *)
Theorem fromArn_sample_first_segment (scope : Construct) (id : jsstring) :
  isUnresolved sampleArn = false ->
  fromArn scope id sampleArn
  = (Ok {| IVpcIngressConnection.vpcIngressConnectionArn := Some sampleArn;
           IVpcIngressConnection.vpcIngressConnectionName :=
             Some (js "arn:aws:apprunner:us-east-1:123456789012:vpcingressconnection");
           IVpcIngressConnection.domainName := None;
           IVpcIngressConnection.status := None |},
     scope).
Proof.
  intros Hconcrete. unfold fromArn, Fn_split, Fn_select, ret.
  rewrite Hconcrete, split_slash_first. reflexivity.
Qed.

(** C3: for a concrete name shorter than 4 or longer than 40 code units the
    constructor throws the length error, whatever the characters of the name
    (the length is checked first); nothing is created; the message gives the
    length in decimal, so that it is the message of no other length; and the
    error is not the format error of any name. *)
Theorem construct_rejects_bad_length
  (scope : Construct) (id : jsstring) (props : VpcIngressConnectionProps.t)
  (name : jsstring) :
  VpcIngressConnectionProps.vpcIngressConnectionName props = Some name ->
  isUnresolved name = false ->
  length name < 4 \/ 40 < length name ->
  VpcIngressConnection_new scope id props
  = (Throw (InvalidNameLength name), scope) /\
  message (InvalidNameLength name)
  = js "`vpcIngressConnectionName` must be between 4 and 40 characters, got: "
    ++ decimal (length name) ++ js " characters." /\
  (forall other,
     message (InvalidNameLength other) = message (InvalidNameLength name) ->
     length other = length name) /\
  (forall other, InvalidNameLength name <> InvalidNameFormat other).
Proof.
  intros Hname Hconcrete Hlen. split; [|split; [|split]].
  - rewrite (new_concrete scope id props name Hname Hconcrete).
    now rewrite length_out_of_range.
  - reflexivity.
  - intros other. apply InvalidNameLength_tells_length.
  - intros other. apply InvalidNameLength_not_Format.
Qed.

(** C4: for a concrete name of 4 to 40 code units whose first one is not
    ASCII alphanumeric, or which holds a code unit that is neither ASCII
    alphanumeric nor hyphen nor underscore, the constructor throws the format
    error; nothing is created; the message holds the name as given, so that
    it is the message of no other name. *)
Theorem construct_rejects_bad_format
  (scope : Construct) (id : jsstring) (props : VpcIngressConnectionProps.t)
  (name : jsstring) :
  VpcIngressConnectionProps.vpcIngressConnectionName props = Some name ->
  isUnresolved name = false ->
  4 <= length name <= 40 ->
  (exists c rest, name = c :: rest /\ ~ asciiAlphanumeric c) \/
  Exists (fun u => ~ nameChar u) name ->
  VpcIngressConnection_new scope id props
  = (Throw (InvalidNameFormat name), scope) /\
  message (InvalidNameFormat name)
  = js "`vpcIngressConnectionName` must start with an alphanumeric character and contain only alphanumeric characters, hyphens, or underscores after that, got: "
    ++ name ++ js "." /\
  (forall other,
     message (InvalidNameFormat other) = message (InvalidNameFormat name) ->
     other = name).
Proof.
  intros Hname Hconcrete Hlen Hbad.
  split; [|split; [reflexivity | intros other; apply InvalidNameFormat_tells_name]].
  rewrite (new_concrete scope id props name Hname Hconcrete).
  rewrite length_in_range by exact Hlen.
  now rewrite namePattern_test_rejects.
Qed.

(** C5: for a name that is a placeholder the constructor runs neither check:
    whatever the length and the characters of the placeholder, and so
    whatever it stands for, the resource is created and the object
    returned. *)
Theorem construct_skips_checks_on_placeholder
  (scope : Construct) (id : jsstring) (props : VpcIngressConnectionProps.t)
  (name : jsstring) :
  VpcIngressConnectionProps.vpcIngressConnectionName props = Some name ->
  isUnresolved name = true ->
  VpcIngressConnection_new scope id props
  = (Ok (handleOf (requestOf id props)), scope ++ [requestOf id props]).
Proof.
  intros Hname Hplaceholder. apply new_unchecked. right. now exists name.
Qed.

(** C6: [fromVpcIngressConnectionAttributes] never throws, returns an object
    whose four fields are the four attributes it was given, and creates
    nothing. *)
Theorem fromAttributes_copies
  (scope : Construct) (id : jsstring)
  (attrs : VpcIngressConnectionAttributes.t) :
  fromVpcIngressConnectionAttributes scope id attrs
  = (Ok {| IVpcIngressConnection.vpcIngressConnectionArn :=
             Some (VpcIngressConnectionAttributes.vpcIngressConnectionArn attrs);
           IVpcIngressConnection.vpcIngressConnectionName :=
             Some (VpcIngressConnectionAttributes.vpcIngressConnectionName attrs);
           IVpcIngressConnection.domainName :=
             Some (VpcIngressConnectionAttributes.domainName attrs);
           IVpcIngressConnection.status :=
             Some (VpcIngressConnectionAttributes.status attrs) |},
     scope).
Proof. reflexivity. Qed.

(** C7: for every ARN, [fromArn] returns an object whose ARN is the input as
    given, without domain name or status, and whose name is segment 0 of the
    input split on a slash: for a concrete input the text before its first
    slash, for a placeholder the placeholder of that segment.  Nothing is
    created. *)
Theorem fromArn_first_segment
  (scope : Construct) (id : jsstring) (arn : jsstring) :
  exists handle,
    fromArn scope id arn = (Ok handle, scope) /\
    IVpcIngressConnection.vpcIngressConnectionArn handle = Some arn /\
    IVpcIngressConnection.domainName handle = None /\
    IVpcIngressConnection.status handle = None /\
    IVpcIngressConnection.vpcIngressConnectionName handle
    = Fn_select 0 (Fn_split slash arn) /\
    (isUnresolved arn = false ->
     IVpcIngressConnection.vpcIngressConnectionName handle
     = Some (firstSegment arn)) /\
    (isUnresolved arn = true ->
     IVpcIngressConnection.vpcIngressConnectionName handle
     = Some (deferredSegment 0 slash arn)).
Proof.
  eexists. split; [reflexivity|]. cbn. repeat split.
  - intros Hconcrete. unfold Fn_split. rewrite Hconcrete. cbn [Fn_select].
    apply split_slash_first.
  - intros Hplaceholder. unfold Fn_split. now rewrite Hplaceholder.
Qed.

(** C8, as amended: for a concrete ARN without any slash, [fromArn] does not
    throw and the name of the object it returns is the whole input.  (Of a
    placeholder ARN the name is the placeholder of its segment 0, which is
    another string.) *)
Theorem fromArn_without_slash
  (scope : Construct) (id : jsstring) (arn : jsstring) :
  isUnresolved arn = false ->
  ~ In 47%N arn ->
  fromArn scope id arn
  = (Ok {| IVpcIngressConnection.vpcIngressConnectionArn := Some arn;
           IVpcIngressConnection.vpcIngressConnectionName := Some arn;
           IVpcIngressConnection.domainName := None;
           IVpcIngressConnection.status := None |},
     scope).
Proof.
  intros Hconcrete Hnone. unfold fromArn, Fn_split, Fn_select, ret.
  rewrite Hconcrete, split_slash_first, firstSegment_without_slash by exact Hnone.
  reflexivity.
Qed.

(** C9: the constructor either returns an object with its four fields bound
    to the attributes of the one resource it created, or throws one of its
    two errors with nothing created. *)
Theorem construct_all_or_nothing
  (scope : Construct) (id : jsstring) (props : VpcIngressConnectionProps.t) :
  (exists resource handle,
     VpcIngressConnection_new scope id props
     = (Ok handle, scope ++ [resource]) /\
     IVpcIngressConnection.vpcIngressConnectionArn handle
     = Some (attrVpcIngressConnectionArn resource) /\
     IVpcIngressConnection.vpcIngressConnectionName handle
     = Some (ref resource) /\
     IVpcIngressConnection.domainName handle
     = Some (attrDomainName resource) /\
     IVpcIngressConnection.status handle = Some (attrStatus resource)) \/
  (exists name,
     VpcIngressConnectionProps.vpcIngressConnectionName props = Some name /\
     (VpcIngressConnection_new scope id props
      = (Throw (InvalidNameLength name), scope) \/
      VpcIngressConnection_new scope id props
      = (Throw (InvalidNameFormat name), scope))).
Proof.
  assert (forall r, VpcIngressConnection_new scope id props
                    = (Ok (handleOf r), scope ++ [r]) ->
          exists resource handle,
            VpcIngressConnection_new scope id props
            = (Ok handle, scope ++ [resource]) /\
            IVpcIngressConnection.vpcIngressConnectionArn handle
            = Some (attrVpcIngressConnectionArn resource) /\
            IVpcIngressConnection.vpcIngressConnectionName handle
            = Some (ref resource) /\
            IVpcIngressConnection.domainName handle
            = Some (attrDomainName resource) /\
            IVpcIngressConnection.status handle = Some (attrStatus resource))
    as Hok.
  { intros r E. exists r, (handleOf r). now rewrite E. }
  destruct (VpcIngressConnectionProps.vpcIngressConnectionName props)
    as [name|] eqn:Hname.
  - destruct (isUnresolved name) eqn:Hplaceholder.
    + left. eapply Hok, new_unchecked. right. now exists name.
    + pose proof (new_concrete scope id props name Hname Hplaceholder) as E.
      destruct ((length name <? 4) || (40 <? length name)).
      * right. exists name. auto.
      * destruct (namePattern_test name).
        -- left. eapply Hok, E.
        -- right. exists name. auto.
  - left. eapply Hok, new_unchecked. now left.
Qed.

(** C10: the empty string is a name that was given, not a missing one: the
    constructor throws the length error, whose message says 0 characters, and
    creates nothing; with no name at all it creates the resource under the
    placeholder for the name assigned later. *)
Theorem construct_rejects_empty_name
  (scope : Construct) (id : jsstring) (props : VpcIngressConnectionProps.t) :
  isUnresolved [] = false ->
  VpcIngressConnectionProps.vpcIngressConnectionName props = Some [] ->
  VpcIngressConnection_new scope id props
  = (Throw (InvalidNameLength []), scope) /\
  message (InvalidNameLength [])
  = js "`vpcIngressConnectionName` must be between 4 and 40 characters, got: 0 characters." /\
  (forall unnamed,
     VpcIngressConnectionProps.vpcIngressConnectionName unnamed = None ->
     VpcIngressConnection_new scope id unnamed
     = (Ok (handleOf (requestOf id unnamed)), scope ++ [requestOf id unnamed]) /\
     CfnVpcIngressConnectionProps.vpcIngressConnectionName
       (CfnVpcIngressConnection.props (requestOf id unnamed)) = assignedName).
Proof.
  intros Hconcrete Hname. split; [|split].
  - now rewrite (new_concrete scope id props [] Hname Hconcrete).
  - reflexivity.
  - intros unnamed Hnone. split.
    + apply new_unchecked. now left.
    + unfold requestOf. cbn. now rewrite Hnone.
Qed.

End Claims.

(** ** The properties at work on concrete inputs *)

Lemma construct_accepts_well_formed_name_witness :
  VpcIngressConnection_new (core := sampleCore) [] (js "Ingress")
    (sampleProps (Some (js "Valid-Name_1")))
  = (Ok (handleOf (core := sampleCore) (requestOf (core := sampleCore) (js "Ingress")
                     (sampleProps (Some (js "Valid-Name_1"))))),
     [requestOf (core := sampleCore) (js "Ingress") (sampleProps (Some (js "Valid-Name_1")))]) /\
  CfnVpcIngressConnectionProps.vpcIngressConnectionName
    (CfnVpcIngressConnection.props
       (requestOf (core := sampleCore) (js "Ingress")
          (sampleProps (Some (js "Valid-Name_1")))))
  = js "Valid-Name_1".
Proof.
  destruct (construct_accepts_well_formed_name (core := sampleCore)
              [] (js "Ingress") (sampleProps (Some (js "Valid-Name_1")))
              (js "Valid-Name_1")) as (Hrun & Hreq & _).
  - reflexivity.
  - reflexivity.
  - simpl; lia.
  - apply namePattern_test_wellFormed. reflexivity.
  - split; [exact Hrun | exact Hreq].
Defined.

Lemma fromArn_sample_first_segment_witness :
  fromArn (core := sampleCore) [] (js "Imported") sampleArn
  = (Ok {| IVpcIngressConnection.vpcIngressConnectionArn := Some sampleArn;
           IVpcIngressConnection.vpcIngressConnectionName :=
             Some (js "arn:aws:apprunner:us-east-1:123456789012:vpcingressconnection");
           IVpcIngressConnection.domainName := None;
           IVpcIngressConnection.status := None |},
     []).
Proof.
  apply (fromArn_sample_first_segment (core := sampleCore) [] (js "Imported")).
  reflexivity.
Defined.

(** C2, as stated, fails: on the ARN of the claim the name [fromArn] gives is
    not [vpcingressconnection]. *)
Lemma fromArn_sample_name_is_not_the_resource_type :
  ~ exists handle tree,
      fromArn (core := sampleCore) [] (js "Imported") sampleArn
      = (Ok handle, tree) /\
      IVpcIngressConnection.vpcIngressConnectionArn handle = Some sampleArn /\
      IVpcIngressConnection.vpcIngressConnectionName handle
      = Some (js "vpcingressconnection") /\
      IVpcIngressConnection.domainName handle = None /\
      IVpcIngressConnection.status handle = None.
Proof.
  intros (handle & tree & Hrun & _ & Hname & _).
  vm_compute in Hrun. injection Hrun as <- _.
  vm_compute in Hname. discriminate Hname.
Qed.

Lemma construct_rejects_bad_length_witness :
  VpcIngressConnection_new (core := sampleCore) [] (js "Ingress")
    (sampleProps (Some (js "ab")))
  = (Throw (InvalidNameLength (js "ab")), []) /\
  message (InvalidNameLength (js "ab"))
  = js "`vpcIngressConnectionName` must be between 4 and 40 characters, got: 2 characters.".
Proof.
  destruct (construct_rejects_bad_length (core := sampleCore)
              [] (js "Ingress") (sampleProps (Some (js "ab"))) (js "ab"))
    as (Hrun & Hmsg & _).
  - reflexivity.
  - reflexivity.
  - left. simpl. lia.
  - split; [exact Hrun | exact Hmsg].
Defined.

Lemma construct_rejects_bad_format_witness :
  VpcIngressConnection_new (core := sampleCore) [] (js "Ingress")
    (sampleProps (Some (js "-abc")))
  = (Throw (InvalidNameFormat (js "-abc")), []).
Proof.
  refine (proj1 (construct_rejects_bad_format (core := sampleCore)
                   [] (js "Ingress") (sampleProps (Some (js "-abc")))
                   (js "-abc") _ _ _ _)).
  - reflexivity.
  - reflexivity.
  - simpl; lia.
  - left. exists 45%N, (js "abc"). split; [reflexivity|].
    unfold asciiAlphanumeric. lia.
Defined.

Lemma construct_skips_checks_on_placeholder_witness :
  40 < length longPlaceholder /\
  namePattern_test longPlaceholder = false /\
  VpcIngressConnection_new (core := sampleCore) [] (js "Ingress")
    (sampleProps (Some longPlaceholder))
  = (Ok (handleOf (core := sampleCore) (requestOf (core := sampleCore) (js "Ingress")
                     (sampleProps (Some longPlaceholder)))),
     [requestOf (core := sampleCore) (js "Ingress") (sampleProps (Some longPlaceholder))]).
Proof.
  split; [simpl; lia | split; [reflexivity|]].
  apply (construct_skips_checks_on_placeholder (core := sampleCore)
           [] (js "Ingress") (sampleProps (Some longPlaceholder))
           longPlaceholder).
  - reflexivity.
  - reflexivity.
Defined.

Lemma fromArn_without_slash_witness :
  fromArn (core := sampleCore) [] (js "Imported") (js "not-an-arn")
  = (Ok {| IVpcIngressConnection.vpcIngressConnectionArn :=
             Some (js "not-an-arn");
           IVpcIngressConnection.vpcIngressConnectionName :=
             Some (js "not-an-arn");
           IVpcIngressConnection.domainName := None;
           IVpcIngressConnection.status := None |},
     []).
Proof.
  apply (fromArn_without_slash (core := sampleCore) [] (js "Imported")
           (js "not-an-arn")).
  - reflexivity.
  - simpl. intuition discriminate.
Defined.

(** C8, as stated, fails: a placeholder ARN is a string without any slash,
    and the name [fromArn] gives for it is not that string. *)
Lemma fromArn_placeholder_without_slash_is_renamed :
  ~ In 47%N (js "${Token[TOKEN.7]}") /\
  ~ exists handle tree,
      fromArn (core := sampleCore) [] (js "Imported") (js "${Token[TOKEN.7]}")
      = (Ok handle, tree) /\
      IVpcIngressConnection.vpcIngressConnectionName handle
      = Some (js "${Token[TOKEN.7]}").
Proof.
  split.
  - simpl. intuition discriminate.
  - intros (handle & tree & Hrun & Hname).
    vm_compute in Hrun. injection Hrun as <- _.
    vm_compute in Hname. discriminate Hname.
Qed.

Lemma construct_rejects_empty_name_witness :
  VpcIngressConnection_new (core := sampleCore) [] (js "Ingress")
    (sampleProps (Some (js "")))
  = (Throw (InvalidNameLength []), []).
Proof.
  apply (construct_rejects_empty_name (core := sampleCore)
           [] (js "Ingress") (sampleProps (Some (js "")))).
  - reflexivity.
  - reflexivity.
Defined.

Example split_abc :
  split slash (js "a/bc//d") = [js "a"; js "bc"; js ""; js "d"].
Proof. reflexivity. Qed.

Example split_two_unit_separator :
  split (js "--") (js "a--b-c--") = [js "a"; js "b-c"; js ""].
Proof. reflexivity. Qed.

Example split_without_separator : split slash (js "abc") = [js "abc"].
Proof. reflexivity. Qed.

Example split_empty : split slash (js "") = [js ""].
Proof. reflexivity. Qed.

Example decimal_41 : decimal 41 = js "41".
Proof. reflexivity. Qed.

Example decimal_0 : decimal 0 = js "0".
Proof. reflexivity. Qed.

(** The scenarios of the naming rule, run. *)

Example name_ab_is_too_short :
  fst (VpcIngressConnection_new (core := sampleCore) [] (js "Ingress")
         (sampleProps (Some (js "ab"))))
  = Throw (InvalidNameLength (js "ab")).
Proof. reflexivity. Qed.

Example name_with_leading_hyphen :
  fst (VpcIngressConnection_new (core := sampleCore) [] (js "Ingress")
         (sampleProps (Some (js "-abc"))))
  = Throw (InvalidNameFormat (js "-abc")).
Proof. reflexivity. Qed.

Example name_short_and_ill_formed :
  fst (VpcIngressConnection_new (core := sampleCore) [] (js "Ingress")
         (sampleProps (Some (js "-!"))))
  = Throw (InvalidNameLength (js "-!")).
Proof. reflexivity. Qed.

Example name_valid_reaches_the_request :
  map (fun r => CfnVpcIngressConnectionProps.vpcIngressConnectionName
                  (CfnVpcIngressConnection.props r))
    (snd (VpcIngressConnection_new (core := sampleCore) [] (js "Ingress")
            (sampleProps (Some (js "Valid-Name_1")))))
  = [js "Valid-Name_1"].
Proof. reflexivity. Qed.

Example placeholder_arn_gives_placeholder_name :
  fst (fromArn (core := sampleCore) [] (js "Imported") (js "${Token[TOKEN.7]}"))
  = Ok {| IVpcIngressConnection.vpcIngressConnectionArn :=
            Some (js "${Token[TOKEN.7]}");
          IVpcIngressConnection.vpcIngressConnectionName :=
            Some (js "${Token[select.0.split./.${Token[TOKEN.7]}]}");
          IVpcIngressConnection.domainName := None;
          IVpcIngressConnection.status := None |}.
Proof. reflexivity. Qed.

(** ** Splitting and joining *)

Lemma startsWith_prefix (sep s : jsstring) :
  startsWith sep s = true -> s = sep ++ skipn (length sep) s.
Proof.
  revert s. induction sep as [|a sep IH]; intros s H; [reflexivity|].
  destruct s as [|b s]; [discriminate|]. cbn in H.
  apply andb_true_iff in H. destruct H as [Hab Hrest].
  apply N.eqb_eq in Hab. subst b. cbn. f_equal. now apply IH.
Qed.

(** Passing over [k] code units first is splitting what is left after
    them. *)
Lemma splitFrom_skip (sep : jsstring) (k : nat) (s : jsstring) :
  splitFrom sep k s = splitFrom sep 0 (skipn k s).
Proof.
  revert k. induction s as [|c rest IH]; intros [|k]; try reflexivity.
  cbn [splitFrom skipn]. apply IH.
Qed.

Lemma join_cons_head (sep : jsstring) (c : N) (seg : jsstring)
  (segs : list jsstring) :
  join sep ((c :: seg) :: segs) = c :: join sep (seg :: segs).
Proof. destruct segs; reflexivity. Qed.

Lemma join_cons_cons (sep seg seg' : jsstring) (segs : list jsstring) :
  join sep (seg :: seg' :: segs) = seg ++ sep ++ join sep (seg' :: segs).
Proof. reflexivity. Qed.

Lemma join_splitFrom (sep : jsstring) (n : nat) :
  sep <> [] ->
  forall s, length s <= n ->
  join sep (fst (splitFrom sep 0 s) :: snd (splitFrom sep 0 s)) = s.
Proof.
  intros Hsep. induction n as [|n IH]; intros s Hlen.
  - destruct s; [reflexivity | cbn in Hlen; lia].
  - destruct s as [|c rest]; [reflexivity|].
    cbn [splitFrom]. destruct (startsWith sep (c :: rest)) eqn:Hstart.
    + rewrite splitFrom_skip.
      pose proof (startsWith_prefix _ _ Hstart) as Hs.
      destruct sep as [|a sep']; [contradiction|].
      cbn [length skipn] in Hs. cbn [length Nat.sub]. rewrite Nat.sub_0_r.
      assert (length (skipn (length sep') rest) <= n) as Hshort.
      { rewrite length_skipn. cbn in Hlen. lia. }
      specialize (IH _ Hshort).
      destruct (splitFrom (a :: sep') 0 (skipn (length sep') rest))
        as [seg segs].
      cbn [fst snd] in *. rewrite join_cons_cons, IH. cbn [app].
      exact (eq_sym Hs).
    + assert (length rest <= n) as Hshort by (cbn in Hlen; lia).
      specialize (IH _ Hshort).
      destruct (splitFrom sep 0 rest) as [seg segs]. cbn [fst snd] in *.
      rewrite join_cons_head. now rewrite IH.
Qed.

Lemma join_split (sep s : jsstring) :
  sep <> [] -> join sep (split sep s) = s.
Proof.
  intros Hsep. pose proof (join_splitFrom sep (length s) Hsep s (le_n _)) as H.
  unfold split. destruct sep; [contradiction|].
  now destruct (splitFrom (n :: sep) 0 s).
Qed.

(** On a slash: no segment holds a slash, and there is one segment more than
    there are slashes. *)
Lemma splitFrom_slash_segments (s : jsstring) :
  Forall (fun seg => ~ In 47%N seg)
    (fst (splitFrom slash 0 s) :: snd (splitFrom slash 0 s)) /\
  length (snd (splitFrom slash 0 s)) = count_occ N.eq_dec s 47%N.
Proof.
  change slash with [47%N].
  induction s as [|c rest [Hfree Hcount]].
  - split; [|reflexivity]. repeat constructor. intros [].
  - cbn [splitFrom startsWith length Nat.sub]. rewrite andb_true_r.
    destruct (N.eqb_spec 47 c) as [<- | Hc].
    + destruct (splitFrom [47%N] 0 rest) as [seg segs]. cbn [fst snd] in *.
      split.
      * constructor; [intros [] | exact Hfree].
      * cbn [length count_occ]. destruct (N.eq_dec 47 47); [|contradiction].
        now rewrite Hcount.
    + destruct (splitFrom [47%N] 0 rest) as [seg segs]. cbn [fst snd] in *.
      split.
      * inversion Hfree as [|x l Hseg Hsegs]; subst. constructor; [|exact Hsegs].
        intros [E | Hin]; [now apply Hc | now apply Hseg].
      * cbn [count_occ]. destruct (N.eq_dec c 47) as [E|_]; [|exact Hcount].
        exfalso. now apply Hc.
Qed.

Lemma firstSegment_app (p rest : jsstring) :
  ~ In 47%N p -> firstSegment (p ++ rest) = p ++ firstSegment rest.
Proof.
  induction p as [|c p IH]; intros Hfree; [reflexivity|].
  cbn [app firstSegment]. destruct (N.eqb_spec c 47) as [-> | _].
  - exfalso. apply Hfree. now left.
  - f_equal. apply IH. intros Hin. apply Hfree. now right.
Qed.

Lemma nameChar_colon : ~ nameChar 58%N.
Proof. unfold nameChar, asciiAlphanumeric. lia. Qed.

(** ** Further properties of the entry points *)

Section Further.

Context {core : CdkCore}.

(** X1: the constructor returns exactly when no name is given, or the name is
    a placeholder, or the name has 4 to 40 code units and obeys the naming
    rule: a concrete name that comes through the constructor is a valid
    one. *)
Theorem construct_succeeds_iff
  (scope : Construct) (id : jsstring) (props : VpcIngressConnectionProps.t) :
  (exists handle tree,
     VpcIngressConnection_new scope id props = (Ok handle, tree)) <->
  match VpcIngressConnectionProps.vpcIngressConnectionName props with
  | None => True
  | Some name =>
      isUnresolved name = true \/
      (4 <= length name <= 40 /\ wellFormedName name)
  end.
Proof.
  destruct (VpcIngressConnectionProps.vpcIngressConnectionName props)
    as [name|] eqn:Hname.
  - destruct (isUnresolved name) eqn:Hplaceholder.
    + split; [now left|]. intros _. eexists _, _.
      apply new_unchecked. right. now exists name.
    + rewrite (new_concrete scope id props name Hname Hplaceholder).
      rewrite <- namePattern_test_wellFormed.
      destruct ((length name <? 4) || (40 <? length name)) eqn:Hlen.
      * split.
        -- intros (handle & tree & E). discriminate E.
        -- intros [E | [Hrange _]]; [discriminate E|].
           now rewrite length_in_range in Hlen.
      * apply orb_false_iff in Hlen. destruct Hlen as [Hlo Hhi].
        apply Nat.ltb_ge in Hlo, Hhi.
        destruct (namePattern_test name).
        -- split; [intros _; right; split; [lia | reflexivity]|].
           intros _. now eexists _, _.
        -- split.
           ++ intros (handle & tree & E). discriminate E.
           ++ intros [E | [_ E]]; discriminate E.
  - split; [trivial|]. intros _. eexists _, _. apply new_unchecked. now left.
Qed.

(** X2: when the constructor throws, a concrete name was given, the tree is
    as before, and the error tells the rule that was broken: the length error
    means a length outside 4..40, the format error means a length within
    4..40 and a name that breaks the naming rule. *)
Theorem construct_error_tells_rule
  (scope : Construct) (id : jsstring) (props : VpcIngressConnectionProps.t)
  (e : Error) (tree : Construct) :
  VpcIngressConnection_new scope id props = (Throw e, tree) ->
  exists name,
    VpcIngressConnectionProps.vpcIngressConnectionName props = Some name /\
    isUnresolved name = false /\
    tree = scope /\
    ((e = InvalidNameLength name /\ (length name < 4 \/ 40 < length name)) \/
     (e = InvalidNameFormat name /\ 4 <= length name <= 40 /\
      ~ wellFormedName name)).
Proof.
  intros Hthrow.
  destruct (VpcIngressConnectionProps.vpcIngressConnectionName props)
    as [name|] eqn:Hname.
  - destruct (isUnresolved name) eqn:Hplaceholder.
    + rewrite new_unchecked in Hthrow by (right; now exists name).
      discriminate Hthrow.
    + exists name. rewrite (new_concrete scope id props name Hname Hplaceholder)
        in Hthrow.
      destruct ((length name <? 4) || (40 <? length name)) eqn:Hlen.
      * injection Hthrow as <- <-. do 3 (split; [first [reflexivity | exact Hplaceholder]|]).
        left. split; [reflexivity|].
        apply orb_true_iff in Hlen. now rewrite !Nat.ltb_lt in Hlen.
      * apply orb_false_iff in Hlen. destruct Hlen as [Hlo Hhi].
        apply Nat.ltb_ge in Hlo, Hhi.
        destruct (namePattern_test name) eqn:Hpattern; [discriminate Hthrow|].
        injection Hthrow as <- <-. do 3 (split; [first [reflexivity | exact Hplaceholder]|]).
        right. split; [reflexivity | split; [lia|]].
        rewrite <- namePattern_test_wellFormed, Hpattern. discriminate.
  - rewrite new_unchecked in Hthrow by now left. discriminate Hthrow.
Qed.

(** X3: whenever the constructor returns, with or without a name, it has
    added one [CfnVpcIngressConnection] at the end of the tree, created under
    the new construct with the id [Resource]; that resource carries the
    endpoint id, the VPC id and the service ARN of the properties, and the
    object returned reads its four fields from it. *)
Theorem construct_success_request
  (scope : Construct) (id : jsstring) (props : VpcIngressConnectionProps.t)
  (handle : IVpcIngressConnection.t) (tree : Construct) :
  VpcIngressConnection_new scope id props = (Ok handle, tree) ->
  exists resource,
    tree = scope ++ [resource] /\
    CfnVpcIngressConnection.scope resource = id /\
    CfnVpcIngressConnection.id resource = js "Resource" /\
    IngressVpcConfigurationProperty.vpcEndpointId
      (CfnVpcIngressConnectionProps.ingressVpcConfiguration
         (CfnVpcIngressConnection.props resource))
    = IInterfaceVpcEndpoint.vpcEndpointId
        (VpcIngressConnectionProps.interfaceVpcEndpoint props) /\
    IngressVpcConfigurationProperty.vpcId
      (CfnVpcIngressConnectionProps.ingressVpcConfiguration
         (CfnVpcIngressConnection.props resource))
    = IVpc.vpcId (VpcIngressConnectionProps.vpc props) /\
    CfnVpcIngressConnectionProps.serviceArn
      (CfnVpcIngressConnection.props resource)
    = IService.serviceArn (VpcIngressConnectionProps.service props) /\
    handle =
    {| IVpcIngressConnection.vpcIngressConnectionArn :=
         Some (attrVpcIngressConnectionArn resource);
       IVpcIngressConnection.vpcIngressConnectionName := Some (ref resource);
       IVpcIngressConnection.domainName := Some (attrDomainName resource);
       IVpcIngressConnection.status := Some (attrStatus resource) |}.
Proof.
  intros Hrun. exists (requestOf id props).
  assert (VpcIngressConnection_new scope id props
          = (Ok (handleOf (requestOf id props)), scope ++ [requestOf id props]))
    as E.
  { destruct (VpcIngressConnectionProps.vpcIngressConnectionName props)
      as [name|] eqn:Hname.
    - destruct (isUnresolved name) eqn:Hplaceholder.
      + apply new_unchecked. right. now exists name.
      + rewrite (new_concrete scope id props name Hname Hplaceholder) in Hrun |- *.
        destruct ((length name <? 4) || (40 <? length name));
          [discriminate Hrun|].
        destruct (namePattern_test name); [reflexivity | discriminate Hrun].
    - apply new_unchecked. now left. }
  rewrite E in Hrun. injection Hrun as <- <-. repeat split.
Qed.

(** X4: for a concrete ARN made of a slash-free part, a slash and anything
    after it, [fromArn] names the object by the whole slash-free part: the
    name is what stands before the first slash of the ARN, not the part
    between the first two slashes. *)
Theorem fromArn_name_is_part_before_first_slash
  (scope : Construct) (id : jsstring) (before after : jsstring) :
  isUnresolved (before ++ slash ++ after) = false ->
  ~ In 47%N before ->
  fromArn scope id (before ++ slash ++ after)
  = (Ok {| IVpcIngressConnection.vpcIngressConnectionArn :=
             Some (before ++ slash ++ after);
           IVpcIngressConnection.vpcIngressConnectionName := Some before;
           IVpcIngressConnection.domainName := None;
           IVpcIngressConnection.status := None |},
     scope).
Proof.
  intros Hconcrete Hfree. unfold fromArn, Fn_split, Fn_select, ret.
  rewrite Hconcrete, split_slash_first, firstSegment_app by exact Hfree.
  change (firstSegment (slash ++ after)) with (@nil N).
  now rewrite app_nil_r.
Qed.

(** X5: the parts into which [fromArn] splits a concrete ARN lose nothing:
    there is at least one, joined again with the delimiter they give the ARN
    back; on a slash, none of them holds a slash and there is one part more
    than the ARN has slashes. *)
Theorem Fn_split_parts_rejoin (delimiter source : jsstring) :
  isUnresolved source = false ->
  delimiter <> [] ->
  exists part parts,
    Fn_split delimiter source = Known (part :: parts) /\
    join delimiter (part :: parts) = source /\
    (delimiter = slash ->
     Forall (fun seg => ~ In 47%N seg) (part :: parts) /\
     length (part :: parts) = S (count_occ N.eq_dec source 47%N)).
Proof.
  intros Hconcrete Hsep. unfold Fn_split. rewrite Hconcrete.
  pose proof (join_split delimiter source Hsep) as Hjoin.
  assert (split delimiter source
          = fst (splitFrom delimiter 0 source)
            :: snd (splitFrom delimiter 0 source)) as Hsplit.
  { unfold split. destruct delimiter; [contradiction|].
    now destruct (splitFrom (n :: delimiter) 0 source). }
  rewrite Hsplit in Hjoin |- *. eexists _, _.
  split; [reflexivity | split; [exact Hjoin|]].
  intros ->. destruct (splitFrom_slash_segments source) as [Hfree Hcount].
  split; [exact Hfree | cbn [length]; now rewrite Hcount].
Qed.

(** X6: the name [fromArn] gives for a concrete ARN with a colon before its
    first slash, as every ARN has, breaks the naming rule of the constructor:
    it is not a name the constructor would take. *)
Theorem fromArn_name_breaks_naming_rule
  (scope : Construct) (id : jsstring) (arn : jsstring) :
  isUnresolved arn = false ->
  In 58%N (firstSegment arn) ->
  exists handle name,
    fromArn scope id arn = (Ok handle, scope) /\
    IVpcIngressConnection.vpcIngressConnectionName handle = Some name /\
    ~ wellFormedName name /\
    namePattern_test name = false.
Proof.
  intros Hconcrete Hcolon. eexists _, (firstSegment arn).
  split; [reflexivity|]. cbn.
  assert (namePattern_test (firstSegment arn) = false) as Hbad.
  { apply namePattern_test_rejects. right. apply Exists_exists.
    exists 58%N. split; [exact Hcolon | exact nameChar_colon]. }
  split; [|split; [|exact Hbad]].
  - unfold Fn_split. rewrite Hconcrete. cbn [Fn_select].
    apply split_slash_first.
  - rewrite <- namePattern_test_wellFormed, Hbad. discriminate.
Qed.

End Further.

(** ** The further properties at work on concrete inputs *)

Lemma construct_error_tells_rule_witness :
  exists name,
    VpcIngressConnectionProps.vpcIngressConnectionName
      (sampleProps (Some (js "no spaces"))) = Some name /\
    isUnresolved (CdkCore := sampleCore) name = false /\
    @nil CfnVpcIngressConnection.t = [] /\
    ((InvalidNameFormat (js "no spaces") = InvalidNameLength name /\
      (length name < 4 \/ 40 < length name)) \/
     (InvalidNameFormat (js "no spaces") = InvalidNameFormat name /\
      4 <= length name <= 40 /\ ~ wellFormedName name)).
Proof.
  apply (construct_error_tells_rule (core := sampleCore) [] (js "Ingress")
           (sampleProps (Some (js "no spaces")))
           (InvalidNameFormat (js "no spaces")) []).
  reflexivity.
Defined.

Lemma construct_success_request_witness :
  exists resource,
    [requestOf (core := sampleCore) (js "Ingress") (sampleProps None)]
    = [] ++ [resource] /\
    CfnVpcIngressConnection.scope resource = js "Ingress" /\
    CfnVpcIngressConnection.id resource = js "Resource" /\
    CfnVpcIngressConnectionProps.serviceArn
      (CfnVpcIngressConnection.props resource)
    = js "arn:aws:apprunner:us-east-1:123456789012:service/svc/1".
Proof.
  destruct (construct_success_request (core := sampleCore) [] (js "Ingress")
              (sampleProps None)
              (handleOf (core := sampleCore)
                 (requestOf (core := sampleCore) (js "Ingress")
                    (sampleProps None)))
              [requestOf (core := sampleCore) (js "Ingress") (sampleProps None)])
    as (resource & Htree & Hscope & Hid & _ & _ & Hservice & _).
  - reflexivity.
  - exists resource. repeat split; assumption.
Defined.

Lemma fromArn_name_is_part_before_first_slash_witness :
  fromArn (core := sampleCore) [] (js "Imported")
    (js "arn:aws:apprunner:eu-west-1:111122223333:vpcingressconnection"
     ++ slash ++ js "web/0f1e2d3c")
  = (Ok {| IVpcIngressConnection.vpcIngressConnectionArn :=
             Some (js "arn:aws:apprunner:eu-west-1:111122223333:vpcingressconnection"
                   ++ slash ++ js "web/0f1e2d3c");
           IVpcIngressConnection.vpcIngressConnectionName :=
             Some (js "arn:aws:apprunner:eu-west-1:111122223333:vpcingressconnection");
           IVpcIngressConnection.domainName := None;
           IVpcIngressConnection.status := None |},
     []).
Proof.
  apply (fromArn_name_is_part_before_first_slash (core := sampleCore)
           [] (js "Imported")).
  - reflexivity.
  - simpl. intuition discriminate.
Defined.

Lemma Fn_split_parts_rejoin_witness :
  exists part parts,
    Fn_split (core := sampleCore) slash (js "a//b/") = Known (part :: parts) /\
    join slash (part :: parts) = js "a//b/" /\
    (slash = slash ->
     Forall (fun seg => ~ In 47%N seg) (part :: parts) /\
     length (part :: parts) = S (count_occ N.eq_dec (js "a//b/") 47%N)).
Proof.
  apply (Fn_split_parts_rejoin (core := sampleCore) slash (js "a//b/")).
  - reflexivity.
  - discriminate.
Defined.

Lemma fromArn_name_breaks_naming_rule_witness :
  exists handle name,
    fromArn (core := sampleCore) [] (js "Imported") sampleArn
    = (Ok handle, []) /\
    IVpcIngressConnection.vpcIngressConnectionName handle = Some name /\
    ~ wellFormedName name /\
    namePattern_test name = false.
Proof.
  apply (fromArn_name_breaks_naming_rule (core := sampleCore)
           [] (js "Imported") sampleArn).
  - reflexivity.
  - vm_compute. tauto.
Defined.

Example split_overlapping_separator :
  split (js "aa") (js "aaa") = [js ""; js "a"].
Proof. reflexivity. Qed.

Example join_three : join slash [js "a"; js ""; js "b"] = js "a//b".
Proof. reflexivity. Qed.
